(** * create_dmg_background.py: the DMG background compositor

    A shallow embedding of [wrapper/src-tauri/create_dmg_background.py].
    The script is a straight-line sequence of calls into Pillow
    ([Image], [ImageDraw], [ImageFont]) followed by [save] and [print].
    It is embedded as a program in a state-and-exception monad over a
    [World] holding the live image objects, the files of the working
    directory, standard output and the log of library calls made so far.

    Pillow itself is not part of the repository: its rasterisers, font
    metrics and PNG encoder are fields of an environment record [Env],
    together with an oracle that decides which library calls raise. *)

From Stdlib Require Import ZArith List Lia.
From Stdlib Require Import Strings.String Strings.Ascii Init.Byte.
From stdpp Require Import base option list gmap strings.

Local Open Scope string_scope.
Local Open Scope Z_scope.

(** ** Values *)

Definition colour : Type := Z * Z * Z.
Definition point : Type := Z * Z.
Definition bbox : Type := Z * Z * Z * Z.

(** Python exceptions. A bare [except:] catches every one of them. *)
Inductive exn : Type :=
  | OSError (msg : string)
  | ValueError (msg : string)
  | MemoryError
  | KeyboardInterrupt
  | SystemExit (code : Z)
  | OtherException (name : string).

Inductive result (A : Type) : Type :=
  | Ok (a : A)
  | Raise (e : exn).
Arguments Ok {A} a.
Arguments Raise {A} e.

(** A font object, identified by how it was obtained. *)
Inductive Font : Type :=
  | FreeTypeFont (path : string) (size : Z)
  | DefaultFont.

(** An image object: mode, size and raster. The raster is total; reads
    through [getpixel] are bounds-checked as in Pillow. *)
Record Image : Type := mkImage {
  im_mode : string;
  im_size : Z * Z;
  im_pixel : point -> colour
}.

(** Image objects live in a store and are named by their index; an
    [ImageDraw] object keeps a reference to the image it draws into. *)
Definition ImageRef : Type := nat.
Record Draw : Type := mkDraw { draw_im : ImageRef }.

Definition in_bounds (im : Image) (p : point) : bool :=
  (0 <=? fst p) && (fst p <? fst (im_size im)) &&
  (0 <=? snd p) && (snd p <? snd (im_size im)).

Definition getpixel (im : Image) (p : point) : option colour :=
  if in_bounds im p then Some (im_pixel im p) else None.

(** ** Library calls *)

Inductive Call : Type :=
  | CallNew (mode : string) (size : Z * Z) (color : colour)
  | CallDraw (im : ImageRef)
  | CallLine (d : Draw) (xy : list point) (fill : colour) (width : Z)
  | CallPolygon (d : Draw) (xy : list point) (fill : colour)
  | CallTruetype (path : string) (size : Z)
  | CallLoadDefault
  | CallTextbbox (d : Draw) (xy : point) (text : string) (font : Font)
  | CallText (d : Draw) (xy : point) (text : string) (fill : colour) (font : Font)
  | CallSave (im : ImageRef) (path : string)
  | CallPrint (line : string).

(** ** The environment: Pillow and the host *)

Record Env : Type := mkEnv {
  (** [raises n c]: whether the library call [c], made as the [n]-th call
      of the process, raises. A missing font file is [raises] answering
      [Some (OSError _)] at the [CallTruetype] call. *)
  raises : nat -> Call -> option exn;
  (** pixels covered by a polyline of a given width *)
  line_mask : list point -> Z -> point -> bool;
  (** pixels covered by a filled polygon *)
  polygon_mask : list point -> point -> bool;
  (** glyph coverage (0..255) of a text drawn at an anchor; 0 is untouched *)
  text_coverage : point -> string -> Font -> point -> Z;
  (** mixing of the ink into a pixel under a non-zero coverage *)
  blend : colour -> colour -> Z -> colour;
  (** (left, top, right, bottom) of a text drawn at an anchor *)
  text_extent : point -> string -> Font -> bbox;
  (** serialisation of an image as a PNG file *)
  png_encode : Image -> list byte
}.

(** ** The world and the monad *)

Record World : Type := mkWorld {
  heap : list Image;
  fs : gmap string (list byte);
  stdout : list string;
  calls : list Call
}.

Definition M (A : Type) : Type := World -> result A * World.

#[global] Instance M_ret : MRet M := fun A a w => (Ok a, w).
#[global] Instance M_bind : MBind M := fun A B f m w =>
  match m w with
  | (Ok a, w') => f a w'
  | (Raise e, w') => (Raise e, w')
  end.

(** [try: m except: h] runs [h] when [m] raises, whatever the exception. *)
Definition try_except {A : Type} (m : M A) (h : M A) : M A := fun w =>
  match m w with
  | (Ok a, w') => (Ok a, w')
  | (Raise _, w') => h w'
  end.

Definition set_heap (h : list Image) (w : World) : World :=
  {| heap := h; fs := fs w; stdout := stdout w; calls := calls w |}.
Definition set_fs (f : gmap string (list byte)) (w : World) : World :=
  {| heap := heap w; fs := f; stdout := stdout w; calls := calls w |}.
Definition set_stdout (o : list string) (w : World) : World :=
  {| heap := heap w; fs := fs w; stdout := o; calls := calls w |}.
Definition log_call (c : Call) (w : World) : World :=
  {| heap := heap w; fs := fs w; stdout := stdout w; calls := calls w ++ [c] |}.

(** Painting: pixels under the mask take the ink, the others are kept. *)
Definition paint (mask : point -> bool) (ink : colour) (im : Image) : Image :=
  {| im_mode := im_mode im; im_size := im_size im;
     im_pixel := fun p => if mask p then ink else im_pixel im p |}.

Definition paint_alpha (mix : colour -> colour -> Z -> colour)
    (cov : point -> Z) (ink : colour) (im : Image) : Image :=
  {| im_mode := im_mode im; im_size := im_size im;
     im_pixel := fun p =>
       if cov p =? 0 then im_pixel im p else mix (im_pixel im p) ink (cov p) |}.

Definition blank (mode : string) (size : Z * Z) (color : colour) : Image :=
  {| im_mode := mode; im_size := size; im_pixel := fun _ => color |}.

Section Library.
Variable env : Env.

(** Every library call is logged, then either raises (as the
    environment decides) or takes effect. *)
Definition invoke {A : Type} (c : Call) (effect : World -> result A * World) : M A :=
  fun w =>
    match raises env (length (calls w)) c with
    | Some e => (Raise e, log_call c w)
    | None => effect (log_call c w)
    end.

(** Mutation of the image behind a reference. References only come
    from [Image_new], so the lookup cannot fail in a run of the script;
    the model raises rather than invent an image. *)
Definition update_image (r : ImageRef) (f : Image -> Image) : World -> result unit * World :=
  fun w =>
    match heap w !! r with
    | Some im => (Ok tt, set_heap (<[r := f im]> (heap w)) w)
    | None => (Raise (ValueError "dangling image"), w)
    end.

Definition Image_new (mode : string) (size : Z * Z) (color : colour) : M ImageRef :=
  invoke (CallNew mode size color) (fun w =>
    (Ok (length (heap w)), set_heap (heap w ++ [blank mode size color]) w)).

Definition ImageDraw_Draw (im : ImageRef) : M Draw :=
  invoke (CallDraw im) (fun w => (Ok (mkDraw im), w)).

Definition draw_line (d : Draw) (xy : list point) (fill : colour) (width : Z) : M unit :=
  invoke (CallLine d xy fill width)
    (update_image (draw_im d) (paint (line_mask env xy width) fill)).

Definition draw_polygon (d : Draw) (xy : list point) (fill : colour) : M unit :=
  invoke (CallPolygon d xy fill)
    (update_image (draw_im d) (paint (polygon_mask env xy) fill)).

Definition ImageFont_truetype (path : string) (size : Z) : M Font :=
  invoke (CallTruetype path size) (fun w => (Ok (FreeTypeFont path size), w)).

Definition ImageFont_load_default : M Font :=
  invoke CallLoadDefault (fun w => (Ok DefaultFont, w)).

Definition draw_textbbox (d : Draw) (xy : point) (text : string) (font : Font) : M bbox :=
  invoke (CallTextbbox d xy text font) (fun w => (Ok (text_extent env xy text font), w)).

Definition draw_text (d : Draw) (xy : point) (text : string) (fill : colour) (font : Font) : M unit :=
  invoke (CallText d xy text fill font)
    (update_image (draw_im d)
       (paint_alpha (blend env) (text_coverage env xy text font) fill)).

Definition Image_save (im : ImageRef) (path : string) : M unit :=
  invoke (CallSave im path) (fun w =>
    match heap w !! im with
    | Some i => (Ok tt, set_fs (<[path := png_encode env i]> (fs w)) w)
    | None => (Raise (ValueError "dangling image"), w)
    end).

Definition print (line : string) : M unit :=
  invoke (CallPrint line) (fun w => (Ok tt, set_stdout (stdout w ++ [line]) w)).

End Library.

(** ** The script *)

(** Module-level constants, in the order the script binds them. *)
Definition WIDTH : Z := 660.
Definition HEIGHT : Z := 400.

Definition app_x : Z := 180.
Definition app_y : Z := 170.
Definition apps_x : Z := 480.
Definition apps_y : Z := 170.

Definition arrow_y : Z := 190.
Definition arrow_start_x : Z := 250.
Definition arrow_end_x : Z := 400.
Definition arrow_width : Z := 2.

Definition arrow_head_size : Z := 20.
Definition arrow_head : list point :=
  [ (arrow_end_x + 2, arrow_y);
    (arrow_end_x - arrow_head_size, arrow_y - arrow_head_size / 2);
    (arrow_end_x - arrow_head_size, arrow_y + arrow_head_size / 2) ].

Definition text : string := "Drag to install".
Definition output_path : string := "dmg-background.png".

Definition app_x_2x : Z := app_x * 2.
Definition app_y_2x : Z := app_y * 2.
Definition apps_x_2x : Z := apps_x * 2.
Definition apps_y_2x : Z := apps_y * 2.
Definition arrow_y_2x : Z := 190 * 2.
Definition arrow_start_x_2x : Z := 250 * 2.
Definition arrow_end_x_2x : Z := 400 * 2.
Definition arrow_width_2x : Z := 2 * 2.

Definition arrow_head_2x : list point :=
  [ (arrow_end_x_2x + 4, arrow_y_2x);
    (arrow_end_x_2x - arrow_head_size * 2, arrow_y_2x - arrow_head_size);
    (arrow_end_x_2x - arrow_head_size * 2, arrow_y_2x + arrow_head_size) ].

Definition output_path_2x : string := "dmg-background@2x.png".

Definition font_path : string := "/System/Library/Fonts/Helvetica.ttc".

(** [bbox[0]] and [bbox[2]] *)
Definition bbox_left (b : bbox) : Z := let '(l, _, _, _) := b in l.
Definition bbox_right (b : bbox) : Z := let '(_, _, r, _) := b in r.

Section Script.
Variable env : Env.

(** Lines 11-63: the base-resolution render. *)
Definition render_base : M unit :=
  img ← Image_new env "RGB" (WIDTH, HEIGHT) (240, 240, 245);
  draw ← ImageDraw_Draw env img;
  draw_line env draw [(arrow_start_x, arrow_y); (arrow_end_x, arrow_y)]
    (150, 150, 160) arrow_width;;
  draw_polygon env draw arrow_head (150, 150, 160);;
  font ← try_except (ImageFont_truetype env font_path 14)
                     (ImageFont_load_default env);
  bbox ← draw_textbbox env draw (0, 0) text font;
  let text_width := bbox_right bbox - bbox_left bbox in
  let text_x := (arrow_start_x + arrow_end_x) / 2 - text_width / 2 in
  let text_y := arrow_y + 12 in
  draw_text env draw (text_x, text_y) text (100, 100, 110) font;;
  Image_save env img output_path;;
  print env ("DMG background created: " ++ output_path)%string.

(** Lines 66-104: the double-resolution render. *)
Definition render_2x : M unit :=
  img_2x ← Image_new env "RGB" (WIDTH * 2, HEIGHT * 2) (240, 240, 245);
  draw_2x ← ImageDraw_Draw env img_2x;
  draw_line env draw_2x
    [(arrow_start_x_2x, arrow_y_2x); (arrow_end_x_2x, arrow_y_2x)]
    (150, 150, 160) arrow_width_2x;;
  draw_polygon env draw_2x arrow_head_2x (150, 150, 160);;
  font_2x ← try_except (ImageFont_truetype env font_path 28)
                        (ImageFont_load_default env);
  bbox_2x ← draw_textbbox env draw_2x (0, 0) text font_2x;
  let text_width_2x := bbox_right bbox_2x - bbox_left bbox_2x in
  let text_x_2x := (arrow_start_x_2x + arrow_end_x_2x) / 2 - text_width_2x / 2 in
  let text_y_2x := arrow_y_2x + 24 in
  draw_text env draw_2x (text_x_2x, text_y_2x) text (100, 100, 110) font_2x;;
  Image_save env img_2x output_path_2x;;
  print env ("DMG background @2x created: " ++ output_path_2x)%string.

(** The whole module, top to bottom. *)
Definition script : M unit := render_base;; render_2x.

(** A process starts with no image objects, nothing printed and no
    library call made; it finds the working directory as it is. *)
Definition boot (files : gmap string (list byte)) : World :=
  {| heap := []; fs := files; stdout := []; calls := [] |}.

Definition run (files : gmap string (list byte)) : result unit * World :=
  script (boot files).

End Script.

(** ** A concrete environment

    A small executable instance of [Env], used to run the script:
    segments and convex polygons are rasterised exactly, glyphs are
    solid cells, and the PNG encoder writes the raster row by row. *)
Module Sample.

Definition between (a b x : Z) : bool :=
  (Z.min a b <=? x) && (x <=? Z.max a b).

(** An axis-aligned segment of the given width. *)
Definition segment_mask (a b : point) (width : Z) (p : point) : bool :=
  let half := width / 2 in
  between (fst a - (if fst a =? fst b then half else 0))
          (fst b + (if fst a =? fst b then half else 0)) (fst p) &&
  between (snd a - (if snd a =? snd b then half else 0))
          (snd b + (if snd a =? snd b then half else 0)) (snd p).

Fixpoint polyline (xy : list point) (width : Z) (p : point) : bool :=
  match xy with
  | a :: ((b :: _) as rest) => segment_mask a b width p || polyline rest width p
  | _ => false
  end.

Definition cross (a b p : point) : Z :=
  (fst b - fst a) * (snd p - snd a) - (snd b - snd a) * (fst p - fst a).

Fixpoint edges (first prev : point) (xy : list point) : list (point * point) :=
  match xy with
  | [] => [(prev, first)]
  | q :: rest => (prev, q) :: edges first q rest
  end.

(** Inside a convex polygon: on the same side of every edge. *)
Definition convex (xy : list point) (p : point) : bool :=
  match xy with
  | [] => false
  | a :: rest =>
      let es := edges a a rest in
      forallb (fun e => 0 <=? cross (fst e) (snd e) p) es ||
      forallb (fun e => cross (fst e) (snd e) p <=? 0) es
  end.

Definition cell (font : Font) : Z * Z :=
  match font with
  | FreeTypeFont _ size => (size / 2, size)
  | DefaultFont => (6, 11)
  end.

Definition extent (xy : point) (s : string) (font : Font) : bbox :=
  (fst xy, snd xy,
   fst xy + fst (cell font) * Z.of_nat (String.length s),
   snd xy + snd (cell font)).

Definition cells (xy : point) (s : string) (font : Font) (p : point) : Z :=
  let '(l, t, r, b) := extent xy s font in
  if (l <=? fst p) && (fst p <? r) && (t <=? snd p) && (snd p <? b)
  then 255 else 0.

Definition mix1 (old ink a : Z) : Z := (old * (255 - a) + ink * a) / 255.
Definition over (old ink : colour) (a : Z) : colour :=
  let '(r0, g0, b0) := old in
  let '(r1, g1, b1) := ink in
  (mix1 r0 r1 a, mix1 g0 g1 a, mix1 b0 b1 a).

Definition byte_of_Z (z : Z) : byte :=
  default x00 (Byte.of_N (Z.to_N (z mod 256))).

Definition raw_rgb (im : Image) : list byte :=
  let '(w, h) := im_size im in
  flat_map (fun y =>
    flat_map (fun x =>
      let '(r, g, b) := im_pixel im (Z.of_nat x, Z.of_nat y) in
      [byte_of_Z r; byte_of_Z g; byte_of_Z b])
    (seq 0 (Z.to_nat w)))
  (seq 0 (Z.to_nat h)).

Definition pillow (oracle : nat -> Call -> option exn) : Env :=
  {| raises := oracle;
     line_mask := polyline;
     polygon_mask := convex;
     text_coverage := cells;
     blend := over;
     text_extent := extent;
     png_encode := raw_rgb |}.

(** The system font is installed and nothing fails. *)
Definition macos : Env := pillow (fun _ _ => None).

(** No Helvetica on this host: every [truetype] call raises. *)
Definition linux : Env :=
  pillow (fun _ c =>
    match c with
    | CallTruetype _ _ => Some (OSError "cannot open resource")
    | _ => None
    end).

(** The disk fills up while the second file is written. *)
Definition disk_full : Env :=
  pillow (fun _ c =>
    match c with
    | CallSave _ "dmg-background@2x.png" => Some (OSError "No space left on device")
    | _ => None
    end).

(** The process runs out of memory while the base arrowhead is filled. *)
Definition out_of_memory : Env :=
  pillow (fun _ c =>
    match c with
    | CallPolygon _ _ _ => Some MemoryError
    | _ => None
    end).

(** A working directory that already holds an older background. *)
Definition stale : gmap string (list byte) :=
  {[ "dmg-background.png" := [x00; x01]; "notes.txt" := [x68; x69] ]}.

End Sample.

(** ** What a run is expected to leave behind

    The values below are written with the numbers of the output
    contract; the execution lemmas further down show that the script
    computes exactly these. *)

Definition line1 : string := "DMG background created: dmg-background.png".
Definition line2 : string := "DMG background @2x created: dmg-background@2x.png".

(** The font the [try]/[except] block ends up with. *)
Definition font_of (fallback : bool) (size : Z) : Font :=
  if fallback then DefaultFont else FreeTypeFont font_path size.

Definition font_calls (fallback : bool) (size : Z) : list Call :=
  CallTruetype font_path size :: (if fallback then [CallLoadDefault] else []).

Section Expected.
Variable env : Env.

(** Whether the [truetype] call made as the [n]-th call raises. *)
Definition fell_back (n : nat) (size : Z) : bool :=
  match raises env n (CallTruetype font_path size) with
  | Some _ => true
  | None => false
  end.

(** [bbox[2] - bbox[0]] of the caption measured at the origin. *)
Definition measured_width (font : Font) : Z :=
  bbox_right (text_extent env (0, 0) text font) -
  bbox_left (text_extent env (0, 0) text font).

Definition base_image (font : Font) : Image :=
  paint_alpha (blend env)
    (text_coverage env (325 - measured_width font / 2, 202) "Drag to install" font)
    (100, 100, 110)
    (paint (polygon_mask env [(402, 190); (380, 180); (380, 200)]) (150, 150, 160)
       (paint (line_mask env [(250, 190); (400, 190)] 2) (150, 150, 160)
          (blank "RGB" (660, 400) (240, 240, 245)))).

Definition retina_image (font : Font) : Image :=
  paint_alpha (blend env)
    (text_coverage env (650 - measured_width font / 2, 404) "Drag to install" font)
    (100, 100, 110)
    (paint (polygon_mask env [(804, 380); (760, 360); (760, 400)]) (150, 150, 160)
       (paint (line_mask env [(500, 380); (800, 380)] 4) (150, 150, 160)
          (blank "RGB" (1320, 800) (240, 240, 245)))).

Definition base_calls (fb : bool) : list Call :=
  [ CallNew "RGB" (660, 400) (240, 240, 245);
    CallDraw 0%nat;
    CallLine (mkDraw 0%nat) [(250, 190); (400, 190)] (150, 150, 160) 2;
    CallPolygon (mkDraw 0%nat) [(402, 190); (380, 180); (380, 200)] (150, 150, 160) ]
  ++ font_calls fb 14 ++
  [ CallTextbbox (mkDraw 0%nat) (0, 0) "Drag to install" (font_of fb 14);
    CallText (mkDraw 0%nat) (325 - measured_width (font_of fb 14) / 2, 202)
      "Drag to install" (100, 100, 110) (font_of fb 14);
    CallSave 0%nat "dmg-background.png";
    CallPrint line1 ].

Definition retina_calls (fb : bool) : list Call :=
  [ CallNew "RGB" (1320, 800) (240, 240, 245);
    CallDraw 1%nat;
    CallLine (mkDraw 1%nat) [(500, 380); (800, 380)] (150, 150, 160) 4;
    CallPolygon (mkDraw 1%nat) [(804, 380); (760, 360); (760, 400)] (150, 150, 160) ]
  ++ font_calls fb 28 ++
  [ CallTextbbox (mkDraw 1%nat) (0, 0) "Drag to install" (font_of fb 28);
    CallText (mkDraw 1%nat) (650 - measured_width (font_of fb 28) / 2, 404)
      "Drag to install" (100, 100, 110) (font_of fb 28);
    CallSave 1%nat "dmg-background@2x.png";
    CallPrint line2 ].

(** The world between the two renders. *)
Definition base_world (files : gmap string (list byte)) (fb : bool) : World :=
  {| heap := [base_image (font_of fb 14)];
     fs := <["dmg-background.png" := png_encode env (base_image (font_of fb 14))]> files;
     stdout := [line1];
     calls := base_calls fb |}.

(** The world at the end of a complete run. *)
Definition final_world (files : gmap string (list byte)) (fb1 fb2 : bool) : World :=
  {| heap := [base_image (font_of fb1 14); retina_image (font_of fb2 28)];
     fs := <["dmg-background@2x.png" := png_encode env (retina_image (font_of fb2 28))]>
             (<["dmg-background.png" := png_encode env (base_image (font_of fb1 14))]> files);
     stdout := [line1; line2];
     calls := base_calls fb1 ++ retina_calls fb2 |}.

(** Only the loading of a font file may fail. *)
Definition quiet : Prop :=
  forall (n : nat) (c : Call),
    raises env n c <> None -> exists path size, c = CallTruetype path size.

End Expected.

(** ** Reading the call log *)

(** Canvases allocated, in order. *)
Definition news (cs : list Call) : list (string * (Z * Z) * colour) :=
  omap (fun c => match c with
                 | CallNew mode size color => Some (mode, size, color)
                 | _ => None
                 end) cs.

(** Polylines stroked on the image [r], through any drawing handle. *)
Definition lines_on (r : ImageRef) (cs : list Call) : list (list point * colour * Z) :=
  omap (fun c => match c with
                 | CallLine d xy fill width =>
                     if decide (draw_im d = r) then Some (xy, fill, width) else None
                 | _ => None
                 end) cs.

(** Polygons filled on the image [r]. *)
Definition polygons_on (r : ImageRef) (cs : list Call) : list (list point * colour) :=
  omap (fun c => match c with
                 | CallPolygon d xy fill =>
                     if decide (draw_im d = r) then Some (xy, fill) else None
                 | _ => None
                 end) cs.

(** Texts drawn on the image [r]: anchor, string, ink and font. *)
Definition texts_on (r : ImageRef) (cs : list Call) : list (point * string * colour * Font) :=
  omap (fun c => match c with
                 | CallText d xy s fill font =>
                     if decide (draw_im d = r) then Some (xy, s, fill, font) else None
                 | _ => None
                 end) cs.

(** Text measurements asked through a handle on the image [r]. *)
Definition measurements_on (r : ImageRef) (cs : list Call) : list (point * string * Font) :=
  omap (fun c => match c with
                 | CallTextbbox d xy s font =>
                     if decide (draw_im d = r) then Some (xy, s, font) else None
                 | _ => None
                 end) cs.

(** Images written to disk: which image, under which name. *)
Definition saves (cs : list Call) : list (ImageRef * string) :=
  omap (fun c => match c with
                 | CallSave im path => Some (im, path)
                 | _ => None
                 end) cs.

(** Font files asked for: path and point size. *)
Definition font_requests (cs : list Call) : list (string * Z) :=
  omap (fun c => match c with
                 | CallTruetype path size => Some (path, size)
                 | _ => None
                 end) cs.

Definition scale_point (k : Z) (p : point) : point := (k * fst p, k * snd p).

(** ** The render as the specification words it

    "Repeat steps 1-7 with all layout constants multiplied by 2 and a
    larger font size, writing to a second output file": one render,
    with every layout constant of the base render multiplied by the
    scale [k] and the font asked for at [14 * k] points. *)
Section Scaled.
Variable env : Env.

Definition render_scaled (k : Z) (banner path : string) : M unit :=
  canvas ← Image_new env "RGB" (660 * k, 400 * k) (240, 240, 245);
  pen ← ImageDraw_Draw env canvas;
  draw_line env pen [(250 * k, 190 * k); (400 * k, 190 * k)] (150, 150, 160) (2 * k);;
  draw_polygon env pen
    [ (400 * k + 2 * k, 190 * k);
      (400 * k - 20 * k, 190 * k - 10 * k);
      (400 * k - 20 * k, 190 * k + 10 * k) ] (150, 150, 160);;
  face ← try_except (ImageFont_truetype env font_path (14 * k))
                     (ImageFont_load_default env);
  box ← draw_textbbox env pen (0, 0) "Drag to install" face;
  draw_text env pen
    ((250 * k + 400 * k) / 2 - (bbox_right box - bbox_left box) / 2, 190 * k + 12 * k)
    "Drag to install" (100, 100, 110) face;;
  Image_save env canvas path;;
  print env (banner ++ path)%string.

End Scaled.

(** ** Pixels touched by the drawing calls *)

(** Whether the call [c] is a drawing on the image [r] that touches [p]. *)
Definition covers (env : Env) (r : ImageRef) (p : point) (c : Call) : bool :=
  match c with
  | CallLine d xy _ width =>
      (draw_im d =? r)%nat && line_mask env xy width p
  | CallPolygon d xy _ =>
      (draw_im d =? r)%nat && polygon_mask env xy p
  | CallText d xy s _ font =>
      (draw_im d =? r)%nat && negb (text_coverage env xy s font p =? 0)
  | _ => false
  end.

(** Whether any logged drawing on the image [r] touches [p]. *)
Definition covered (env : Env) (cs : list Call) (r : ImageRef) (p : point) : bool :=
  existsb (covers env r p) cs.

(** Calls to [ImageFont.load_default], i.e. renders that fell back. *)
Definition default_loads (cs : list Call) : nat :=
  length (omap (fun c => match c with
                         | CallLoadDefault => Some tt
                         | _ => None
                         end) cs).

(** ** The file from its first line

    Line 4, [from PIL import Image, ImageDraw, ImageFont], runs before
    anything else. It either binds the three names or raises (Pillow
    missing or broken); it draws nothing, writes nothing and makes no
    call into the library. Its outcome is a parameter of the run. *)
Definition import_PIL (outcome : option exn) : M unit := fun w =>
  match outcome with
  | Some e => (Raise e, w)
  | None => (Ok tt, w)
  end.

(** Lines 4-104. *)
Definition create_dmg_background (env : Env) (pil : option exn) : M unit :=
  import_PIL pil;; script env.

Definition run_file (env : Env) (pil : option exn)
    (files : gmap string (list byte)) : result unit * World :=
  create_dmg_background env pil (boot files).

(** ** Symbolic execution *)

Ltac unfold_script :=
  unfold run, script, render_base, render_2x, mbind, M_bind, try_except,
    Image_new, ImageDraw_Draw, draw_line, draw_polygon, ImageFont_truetype,
    ImageFont_load_default, draw_textbbox, draw_text, Image_save, print,
    invoke, update_image.

(** Runs the program in the goal one library call at a time, splitting
    on whether the call raises. *)
Ltac exec_calls env :=
  cbn;
  repeat match goal with
         | |- context [raises env ?n ?c] =>
             destruct (raises env n c) eqn:?; cbn
         end.

(** [Hraise] says that a logged call raised, against what the
    execution recorded for that call. *)
Ltac clash_raise Hraise :=
  match goal with
  | H : raises _ _ _ = None |- _ =>
      let Hclash := fresh "Hclash" in
      pose proof (eq_trans (eq_sym Hraise) H) as Hclash;
      exfalso; discriminate Hclash
  end.

(** A raising call that is not a font request: impossible unless it is
    the call the run stopped at. *)
Ltac settle_raise Hraise Hnot :=
  first
    [ exfalso; exact (Hnot _ _ eq_refl)
    | clash_raise Hraise
    | match goal with
      | H : raises _ _ _ = Some _ |- _ =>
          let Hsame := fresh "Hsame" in
          pose proof (eq_trans (eq_sym Hraise) H) as Hsame;
          injection Hsame as ->; split; reflexivity
      end ].

(** Goes through a concrete call log entry by entry: [Hl] says that
    the [n]-th entry is some call, and [tac] deals with each candidate. *)
Ltac scan_log n Hl tac :=
  lazymatch type of Hl with
  | (_ :: _) !! _ = _ =>
      destruct n as [|n]; cbn in Hl; [ tac | scan_log n Hl tac ]
  | _ => cbn in Hl; discriminate Hl
  end.

(** Runs the program in the goal on a concrete host. *)
Ltac run_script := unfold_script; cbn; reflexivity.

Section Execution.
Variable env : Env.
Variable files : gmap string (list byte).

Lemma render_base_inv (w1 : World) :
  render_base env (boot files) = (Ok tt, w1) ->
  w1 = base_world env files (fell_back env 4 14).
Proof.
  unfold fell_back. unfold_script. exec_calls env;
    intros Hrun; try discriminate Hrun;
    injection Hrun as <-; reflexivity.
Qed.

Lemma render_2x_inv (fb : bool) (w : World) :
  render_2x env (base_world env files fb) = (Ok tt, w) ->
  w = final_world env files fb (fell_back env (13 + Nat.b2n fb) 28).
Proof.
  unfold fell_back. destruct fb; unfold_script; exec_calls env;
    intros Hrun; try discriminate Hrun;
    injection Hrun as <-; reflexivity.
Qed.

End Execution.

Section Runs.
Variable env : Env.

Lemma script_unfold (w : World) :
  script env w =
  match render_base env w with
  | (Ok _, w1) => render_2x env w1
  | (Raise e, w1) => (Raise e, w1)
  end.
Proof. reflexivity. Qed.

(** A run that completes ends in [final_world]. *)
Lemma run_inv (files : gmap string (list byte)) (w : World) :
  run env files = (Ok tt, w) ->
  w = final_world env files (fell_back env 4 14)
        (fell_back env (13 + Nat.b2n (fell_back env 4 14)) 28).
Proof.
  unfold run. rewrite script_unfold.
  destruct (render_base env (boot files)) as [[[]|e] w1] eqn:Hbase;
    [|discriminate].
  apply render_base_inv in Hbase. subst w1.
  apply render_2x_inv.
Qed.

(** The outcome of a run does not depend on the files it finds. *)
Lemma outcome_independent (files1 files2 : gmap string (list byte)) :
  fst (run env files1) = fst (run env files2).
Proof.
  unfold_script. exec_calls env; reflexivity.
Qed.

(** When only font loading can fail, the script runs to completion. *)
Lemma run_quiet (files : gmap string (list byte)) :
  quiet env -> fst (run env files) = Ok tt.
Proof.
  intros Hq.
  assert (Hnone : forall n c,
             (forall path size, c <> CallTruetype path size) ->
             raises env n c = None).
  { intros n c Hc. destruct (raises env n c) eqn:E; [|reflexivity].
    destruct (Hq n c) as (path & size & ->); [congruence|].
    exfalso. exact (Hc path size eq_refl). }
  unfold_script. cbn.
  repeat match goal with
         | |- context [raises env ?n (CallTruetype ?p ?s)] =>
             destruct (raises env n (CallTruetype p s)); cbn
         | |- context [raises env ?n ?c] =>
             rewrite (Hnone n c) by (intros ? ?; discriminate); cbn
         end; reflexivity.
Qed.

End Runs.

Section Consequences.
Variable env : Env.
Variable files : gmap string (list byte).

Lemma run_success (w : World) :
  run env files = (Ok tt, w) ->
  exists fb1 fb2, w = final_world env files fb1 fb2.
Proof. intros H. apply run_inv in H. eauto. Qed.

(** Whatever the second render does, it leaves the first file, the
    first confirmation line and the log of the first render alone. *)
Lemma render_2x_frame (fb : bool) (r : result unit) (w : World) :
  render_2x env (base_world env files fb) = (r, w) ->
  fs w !! "dmg-background.png" =
    Some (png_encode env (base_image env (font_of fb 14))) /\
  (exists later, stdout w = line1 :: later) /\
  (exists steps,
      calls w = (base_calls env fb ++
                 CallNew "RGB" (1320, 800) (240, 240, 245) :: steps)%list).
Proof.
  destruct fb; unfold_script; exec_calls env;
    intros Hrun; injection Hrun as <- <-; cbn;
    (split; [ rewrite ?lookup_insert_ne by done; apply lookup_insert_eq
            | split; eexists; reflexivity ]).
Qed.

End Consequences.

(** ** Running the script on the sample hosts *)

Example macos_log :
  calls (snd (run Sample.macos ∅)) =
    [ CallNew "RGB" (660, 400) (240, 240, 245);
      CallDraw 0%nat;
      CallLine (mkDraw 0%nat) [(250, 190); (400, 190)] (150, 150, 160) 2;
      CallPolygon (mkDraw 0%nat) [(402, 190); (380, 180); (380, 200)] (150, 150, 160);
      CallTruetype "/System/Library/Fonts/Helvetica.ttc" 14;
      CallTextbbox (mkDraw 0%nat) (0, 0) "Drag to install"
        (FreeTypeFont "/System/Library/Fonts/Helvetica.ttc" 14);
      CallText (mkDraw 0%nat) (273, 202) "Drag to install" (100, 100, 110)
        (FreeTypeFont "/System/Library/Fonts/Helvetica.ttc" 14);
      CallSave 0%nat "dmg-background.png";
      CallPrint "DMG background created: dmg-background.png";
      CallNew "RGB" (1320, 800) (240, 240, 245);
      CallDraw 1%nat;
      CallLine (mkDraw 1%nat) [(500, 380); (800, 380)] (150, 150, 160) 4;
      CallPolygon (mkDraw 1%nat) [(804, 380); (760, 360); (760, 400)] (150, 150, 160);
      CallTruetype "/System/Library/Fonts/Helvetica.ttc" 28;
      CallTextbbox (mkDraw 1%nat) (0, 0) "Drag to install"
        (FreeTypeFont "/System/Library/Fonts/Helvetica.ttc" 28);
      CallText (mkDraw 1%nat) (545, 404) "Drag to install" (100, 100, 110)
        (FreeTypeFont "/System/Library/Fonts/Helvetica.ttc" 28);
      CallSave 1%nat "dmg-background@2x.png";
      CallPrint "DMG background @2x created: dmg-background@2x.png" ].
Proof. run_script. Qed.

Example linux_falls_back :
  font_requests (calls (snd (run Sample.linux ∅))) =
    [ ("/System/Library/Fonts/Helvetica.ttc", 14);
      ("/System/Library/Fonts/Helvetica.ttc", 28) ] /\
  texts_on 0%nat (calls (snd (run Sample.linux ∅))) =
    [ ((280, 202), "Drag to install", (100, 100, 110), DefaultFont) ] /\
  texts_on 1%nat (calls (snd (run Sample.linux ∅))) =
    [ ((605, 404), "Drag to install", (100, 100, 110), DefaultFont) ] /\
  fst (run Sample.linux ∅) = Ok tt.
Proof. repeat split; run_script. Qed.

Example disk_full_outcome :
  fst (run Sample.disk_full ∅) = Raise (OSError "No space left on device") /\
  stdout (snd (run Sample.disk_full ∅)) =
    [ "DMG background created: dmg-background.png" ] /\
  saves (calls (snd (run Sample.disk_full ∅))) =
    [ (0%nat, "dmg-background.png"); (1%nat, "dmg-background@2x.png") ].
Proof. repeat split; run_script. Qed.

(** A few pixels of the base image on the host with the font: the
    shaft, the arrowhead, the caption, and the background around them. *)
Example macos_base_pixels :
  let img := base_image Sample.macos (font_of false 14) in
  getpixel img (250, 190) = Some (150, 150, 160) /\
  getpixel img (400, 190) = Some (150, 150, 160) /\
  getpixel img (249, 190) = Some (240, 240, 245) /\
  getpixel img (300, 188) = Some (240, 240, 245) /\
  getpixel img (390, 186) = Some (150, 150, 160) /\
  getpixel img (402, 190) = Some (150, 150, 160) /\
  getpixel img (403, 190) = Some (240, 240, 245) /\
  getpixel img (300, 205) = Some (100, 100, 110) /\
  getpixel img (0, 0) = Some (240, 240, 245) /\
  getpixel img (660, 0) = None.
Proof. cbv zeta. repeat split; vm_compute; reflexivity. Qed.

Example scaled_vertices :
  arrow_head = [(402, 190); (380, 180); (380, 200)] /\
  arrow_head_2x = [(804, 380); (760, 360); (760, 400)].
Proof. split; reflexivity. Qed.

(** ** The output contract *)

Section Contract.
Variable env : Env.
Variable files : gmap string (list byte).

(** C1. A complete run allocates exactly two images, of 660x400 and of
    1320x800 = (WIDTH*2)x(HEIGHT*2) pixels, and these are the images
    saved as dmg-background.png and dmg-background@2x.png. *)
Theorem output_dimensions (w : World) :
  run env files = (Ok tt, w) ->
  exists img img_2x,
    heap w = [img; img_2x] /\
    im_size img = (660, 400) /\
    im_size img_2x = (1320, 800) /\
    im_size img = (WIDTH, HEIGHT) /\
    im_size img_2x = (WIDTH * 2, HEIGHT * 2) /\
    news (calls w) = [ ("RGB", (660, 400), (240, 240, 245));
                       ("RGB", (1320, 800), (240, 240, 245)) ] /\
    saves (calls w) = [ (0%nat, "dmg-background.png");
                        (1%nat, "dmg-background@2x.png") ] /\
    fs w !! "dmg-background.png" = Some (png_encode env img) /\
    fs w !! "dmg-background@2x.png" = Some (png_encode env img_2x).
Proof.
  intros Hrun. apply run_success in Hrun as (fb1 & fb2 & ->).
  eexists _, _. split; [reflexivity|].
  repeat split; try (destruct fb1, fb2; reflexivity).
  - cbn. rewrite lookup_insert_ne by done. apply lookup_insert_eq.
  - cbn. apply lookup_insert_eq.
Qed.

(** C2. The only line stroked on the base image runs from (250,190) to
    (400,190) in colour (150,150,160) with width 2; the only line
    stroked on the 2x image runs from (500,380) to (800,380), the
    doubled coordinates, in the same colour with width 4. The line is in
    the images the two files hold: every pixel that segment covers has
    the stroke colour, except where the caption, drawn later, lies over
    it. *)
Theorem arrow_line_drawn (w : World) :
  run env files = (Ok tt, w) ->
  exists img img_2x anchor font anchor_2x font_2x,
    heap w = [img; img_2x] /\
    fs w !! "dmg-background.png" = Some (png_encode env img) /\
    fs w !! "dmg-background@2x.png" = Some (png_encode env img_2x) /\
    lines_on 0%nat (calls w) = [ ([(250, 190); (400, 190)], (150, 150, 160), 2) ] /\
    lines_on 1%nat (calls w) = [ ([(500, 380); (800, 380)], (150, 150, 160), 4) ] /\
    map (scale_point 2) [(250, 190); (400, 190)] = [(500, 380); (800, 380)] /\
    saves (calls w) = [ (0%nat, "dmg-background.png");
                        (1%nat, "dmg-background@2x.png") ] /\
    texts_on 0%nat (calls w) =
      [ (anchor, "Drag to install", (100, 100, 110), font) ] /\
    texts_on 1%nat (calls w) =
      [ (anchor_2x, "Drag to install", (100, 100, 110), font_2x) ] /\
    (forall p, in_bounds img p = true ->
               line_mask env [(250, 190); (400, 190)] 2 p = true ->
               text_coverage env anchor "Drag to install" font p = 0 ->
               getpixel img p = Some (150, 150, 160)) /\
    (forall p, in_bounds img_2x p = true ->
               line_mask env [(500, 380); (800, 380)] 4 p = true ->
               text_coverage env anchor_2x "Drag to install" font_2x p = 0 ->
               getpixel img_2x p = Some (150, 150, 160)).
Proof.
  intros Hrun. apply run_success in Hrun as (fb1 & fb2 & ->).
  exists (base_image env (font_of fb1 14)), (retina_image env (font_of fb2 28)).
  exists (325 - measured_width env (font_of fb1 14) / 2, 202), (font_of fb1 14).
  exists (650 - measured_width env (font_of fb2 28) / 2, 404), (font_of fb2 28).
  split; [reflexivity|].
  split; [cbn; rewrite lookup_insert_ne by done; apply lookup_insert_eq|].
  split; [cbn; apply lookup_insert_eq|].
  do 6 (split; [destruct fb1, fb2; reflexivity|]).
  split; intros p Hin Hline Htext; unfold getpixel; rewrite Hin; f_equal; cbn;
    cbn in Htext; rewrite Htext, Hline; cbn;
    destruct (polygon_mask env _ p); reflexivity.
Qed.

(** C3. The only polygon filled on the base image is the triangle with
    apex (402,190) and base corners (380,180), (380,200), in colour
    (150,150,160); on the 2x image it is the triangle (804,380),
    (760,360), (760,400): every vertex exactly doubled. The triangle is
    filled in the images the two files hold: every pixel it covers has
    that colour, except where the caption, drawn later, lies over it. *)
Theorem arrow_head_drawn (w : World) :
  run env files = (Ok tt, w) ->
  exists img img_2x anchor font anchor_2x font_2x,
    heap w = [img; img_2x] /\
    fs w !! "dmg-background.png" = Some (png_encode env img) /\
    fs w !! "dmg-background@2x.png" = Some (png_encode env img_2x) /\
    polygons_on 0%nat (calls w) =
      [ ([(402, 190); (380, 180); (380, 200)], (150, 150, 160)) ] /\
    polygons_on 1%nat (calls w) =
      [ ([(804, 380); (760, 360); (760, 400)], (150, 150, 160)) ] /\
    map (scale_point 2) [(402, 190); (380, 180); (380, 200)] =
      [(804, 380); (760, 360); (760, 400)] /\
    saves (calls w) = [ (0%nat, "dmg-background.png");
                        (1%nat, "dmg-background@2x.png") ] /\
    texts_on 0%nat (calls w) =
      [ (anchor, "Drag to install", (100, 100, 110), font) ] /\
    texts_on 1%nat (calls w) =
      [ (anchor_2x, "Drag to install", (100, 100, 110), font_2x) ] /\
    (forall p, in_bounds img p = true ->
               polygon_mask env [(402, 190); (380, 180); (380, 200)] p = true ->
               text_coverage env anchor "Drag to install" font p = 0 ->
               getpixel img p = Some (150, 150, 160)) /\
    (forall p, in_bounds img_2x p = true ->
               polygon_mask env [(804, 380); (760, 360); (760, 400)] p = true ->
               text_coverage env anchor_2x "Drag to install" font_2x p = 0 ->
               getpixel img_2x p = Some (150, 150, 160)).
Proof.
  intros Hrun. apply run_success in Hrun as (fb1 & fb2 & ->).
  exists (base_image env (font_of fb1 14)), (retina_image env (font_of fb2 28)).
  exists (325 - measured_width env (font_of fb1 14) / 2, 202), (font_of fb1 14).
  exists (650 - measured_width env (font_of fb2 28) / 2, 404), (font_of fb2 28).
  split; [reflexivity|].
  split; [cbn; rewrite lookup_insert_ne by done; apply lookup_insert_eq|].
  split; [cbn; apply lookup_insert_eq|].
  do 6 (split; [destruct fb1, fb2; reflexivity|]).
  split; intros p Hin Hpoly Htext; unfold getpixel; rewrite Hin; f_equal; cbn;
    cbn in Htext; rewrite Htext, Hpoly; reflexivity.
Qed.

(** C4. The caption "Drag to install" is measured at the origin with
    the chosen font and drawn, in colour (100,100,110), with its left
    edge at (250+400)//2 minus half the measured width and its top at
    y = 202 = arrow_y + 12; on the 2x image at (500+800)//2 minus half
    the measured width and y = 404 = arrow_y_2x + 24. The margins left
    of and right of the measured width differ by at most one pixel. The
    caption is in the images the two files hold: wherever the text drawn
    at that position has coverage, the pixel is the ink (100,100,110)
    mixed, by that coverage, over the arrow or the background under it. *)
Theorem caption_placement (w : World) :
  run env files = (Ok tt, w) ->
  exists font font_2x,
    let width := measured_width env font in
    let width_2x := measured_width env font_2x in
    let x := (250 + 400) / 2 - width / 2 in
    let x_2x := (500 + 800) / 2 - width_2x / 2 in
    measurements_on 0%nat (calls w) = [ ((0, 0), "Drag to install", font) ] /\
    measurements_on 1%nat (calls w) = [ ((0, 0), "Drag to install", font_2x) ] /\
    texts_on 0%nat (calls w) =
      [ ((x, 202), "Drag to install", (100, 100, 110), font) ] /\
    texts_on 1%nat (calls w) =
      [ ((x_2x, 404), "Drag to install", (100, 100, 110), font_2x) ] /\
    202 = arrow_y + 12 /\ 404 = arrow_y_2x + 24 /\
    0 <= (x - 250) - (400 - (x + width)) <= 1 /\
    0 <= (x_2x - 500) - (800 - (x_2x + width_2x)) <= 1 /\
    exists img img_2x,
      heap w = [img; img_2x] /\
      fs w !! "dmg-background.png" = Some (png_encode env img) /\
      fs w !! "dmg-background@2x.png" = Some (png_encode env img_2x) /\
      (forall p,
          in_bounds img p = true ->
          text_coverage env (x, 202) "Drag to install" font p <> 0 ->
          getpixel img p =
          Some (blend env
                  (if polygon_mask env [(402, 190); (380, 180); (380, 200)] p ||
                      line_mask env [(250, 190); (400, 190)] 2 p
                   then (150, 150, 160) else (240, 240, 245))
                  (100, 100, 110)
                  (text_coverage env (x, 202) "Drag to install" font p))) /\
      (forall p,
          in_bounds img_2x p = true ->
          text_coverage env (x_2x, 404) "Drag to install" font_2x p <> 0 ->
          getpixel img_2x p =
          Some (blend env
                  (if polygon_mask env [(804, 380); (760, 360); (760, 400)] p ||
                      line_mask env [(500, 380); (800, 380)] 4 p
                   then (150, 150, 160) else (240, 240, 245))
                  (100, 100, 110)
                  (text_coverage env (x_2x, 404) "Drag to install" font_2x p))).
Proof.
  intros Hrun. apply run_success in Hrun as (fb1 & fb2 & ->).
  exists (font_of fb1 14), (font_of fb2 28). cbv zeta.
  do 6 (split; [destruct fb1, fb2; reflexivity|]).
  split; [change ((250 + 400) / 2) with 325; Z.div_mod_to_equations; lia|].
  split; [change ((500 + 800) / 2) with 650; Z.div_mod_to_equations; lia|].
  exists (base_image env (font_of fb1 14)), (retina_image env (font_of fb2 28)).
  split; [reflexivity|].
  split; [cbn; rewrite lookup_insert_ne by done; apply lookup_insert_eq|].
  split; [cbn; apply lookup_insert_eq|].
  split; intros p Hin Hcov; unfold getpixel; rewrite Hin; f_equal; cbn;
    match goal with
    | |- context [?cov =? 0] => destruct (Z.eqb_spec cov 0) as [Hzero|_]
    end;
    [ exfalso; exact (Hcov Hzero)
    | destruct (polygon_mask env _ p), (line_mask env _ _ p); reflexivity
    | exfalso; exact (Hcov Hzero)
    | destruct (polygon_mask env _ p), (line_mask env _ _ p); reflexivity ].
Qed.

(** C5. When nothing but the loading of a font file can fail, the
    script completes whatever that loading does: the font file is
    asked for once per render (no retry, no other file); a render
    whose request raises, with any exception, draws its caption with
    the built-in default font obtained right after the failed request,
    and a render whose request succeeds uses the loaded face; nothing
    but the two confirmation lines is printed and both files exist at
    the end. *)
Theorem font_fallback_completes :
  quiet env ->
  exists (w : World) (n n_2x : nat),
    run env files = (Ok tt, w) /\
    font_path = "/System/Library/Fonts/Helvetica.ttc" /\
    font_requests (calls w) = [ (font_path, 14); (font_path, 28) ] /\
    calls w !! n = Some (CallTruetype font_path 14) /\
    calls w !! n_2x = Some (CallTruetype font_path 28) /\
    (exists xy,
        texts_on 0%nat (calls w) =
          [ (xy, "Drag to install", (100, 100, 110),
             match raises env n (CallTruetype font_path 14) with
             | Some _ => DefaultFont
             | None => FreeTypeFont font_path 14
             end) ]) /\
    (exists xy,
        texts_on 1%nat (calls w) =
          [ (xy, "Drag to install", (100, 100, 110),
             match raises env n_2x (CallTruetype font_path 28) with
             | Some _ => DefaultFont
             | None => FreeTypeFont font_path 28
             end) ]) /\
    (raises env n (CallTruetype font_path 14) <> None ->
     calls w !! S n = Some CallLoadDefault) /\
    (raises env n_2x (CallTruetype font_path 28) <> None ->
     calls w !! S n_2x = Some CallLoadDefault) /\
    stdout w = [ line1; line2 ] /\
    is_Some (fs w !! "dmg-background.png") /\
    is_Some (fs w !! "dmg-background@2x.png").
Proof.
  intros Hq. pose proof (run_quiet env files Hq) as Hok.
  destruct (run env files) as [r w] eqn:Hrun. cbn in Hok. subst r.
  pose proof (run_inv env files w Hrun) as Hw.
  exists w, 4%nat, (13 + Nat.b2n (fell_back env 4 14))%nat.
  rewrite Hw. clear Hrun Hw. unfold fell_back.
  destruct (raises env 4 (CallTruetype font_path 14)) eqn:E1; cbn;
    destruct (raises env _ (CallTruetype font_path 28)) eqn:E2; cbn.
  all: repeat lazymatch goal with
              | |- _ /\ _ => split
              | |- _ -> _ => intros ?
              | |- ex _ => eexists
              | |- is_Some _ => rewrite ?lookup_insert_ne by done;
                                rewrite lookup_insert_eq; eexists
              end; try reflexivity; try congruence.
Qed.

(** C6. The second render is the first one with every layout constant
    multiplied by exactly 2 and the font asked for at 28 = 2 * 14
    points: both are the one scaled render of the specification, at
    scales 1 and 2, each writing to its own file. *)
Theorem retina_is_scaled_base :
  (forall w : World,
      render_base env w =
      render_scaled env 1 "DMG background created: " "dmg-background.png" w) /\
  (forall w : World,
      render_2x env w =
      render_scaled env 2 "DMG background @2x created: " "dmg-background@2x.png" w) /\
  (WIDTH * 2, HEIGHT * 2) = (2 * 660, 2 * 400) /\
  arrow_y_2x = 2 * arrow_y /\
  arrow_start_x_2x = 2 * arrow_start_x /\
  arrow_end_x_2x = 2 * arrow_end_x /\
  arrow_width_2x = 2 * arrow_width /\
  arrow_head_2x = map (scale_point 2) arrow_head /\
  arrow_head = [ (arrow_end_x + 2, arrow_y);
                 (arrow_end_x - 20, arrow_y - 10);
                 (arrow_end_x - 20, arrow_y + 10) ] /\
  arrow_head_2x = [ (arrow_end_x_2x + 2 * 2, arrow_y_2x);
                    (arrow_end_x_2x - 2 * 20, arrow_y_2x - 2 * 10);
                    (arrow_end_x_2x - 2 * 20, arrow_y_2x + 2 * 10) ] /\
  output_path <> output_path_2x.
Proof.
  repeat split; try reflexivity. discriminate.
Qed.

(** C7. Both canvases start as a uniform (240,240,245), and after a
    complete run every pixel of either image that no line, polygon or
    caption drawn on that image touches is still (240,240,245); these
    are the images written to the two files. *)
Theorem background_preserved (w : World) :
  run env files = (Ok tt, w) ->
  exists img img_2x,
    heap w = [img; img_2x] /\
    fs w !! "dmg-background.png" = Some (png_encode env img) /\
    fs w !! "dmg-background@2x.png" = Some (png_encode env img_2x) /\
    news (calls w) = [ ("RGB", (660, 400), (240, 240, 245));
                       ("RGB", (1320, 800), (240, 240, 245)) ] /\
    (forall p, in_bounds img p = true ->
               covered env (calls w) 0%nat p = false ->
               getpixel img p = Some (240, 240, 245)) /\
    (forall p, in_bounds img_2x p = true ->
               covered env (calls w) 1%nat p = false ->
               getpixel img_2x p = Some (240, 240, 245)).
Proof.
  intros Hrun. apply run_success in Hrun as (fb1 & fb2 & ->).
  eexists _, _. split; [reflexivity|].
  split; [cbn; rewrite lookup_insert_ne by done; apply lookup_insert_eq|].
  split; [cbn; apply lookup_insert_eq|].
  split; [destruct fb1, fb2; reflexivity|].
  split; intros p Hin Hcov; unfold getpixel; rewrite Hin; f_equal;
    destruct fb1, fb2; cbn in Hcov |- *;
    repeat match goal with
           | H : (_ || _) = false |- _ => apply orb_false_iff in H as [? ?]
           | H : negb _ = false |- _ => apply negb_false_iff in H
           end;
    repeat match goal with
           | H : ?m = _ |- context [?m] => rewrite H
           end;
    reflexivity.
Qed.

(** C8. The output does not depend on anything but the environment:
    if a run completes in one working directory, a run in the same
    environment completes in any other working directory and writes
    the same bytes to both files; in particular a second run over the
    result of the first leaves every file as it is. *)
Theorem rerun_byte_identical (files' : gmap string (list byte)) (w : World) :
  run env files = (Ok tt, w) ->
  exists w' w'',
    run env files' = (Ok tt, w') /\
    is_Some (fs w !! "dmg-background.png") /\
    is_Some (fs w !! "dmg-background@2x.png") /\
    fs w' !! "dmg-background.png" = fs w !! "dmg-background.png" /\
    fs w' !! "dmg-background@2x.png" = fs w !! "dmg-background@2x.png" /\
    stdout w' = stdout w /\
    run env (fs w) = (Ok tt, w'') /\
    fs w'' = fs w.
Proof.
  intros Hrun.
  assert (Hany : forall other,
             run env other =
             (Ok tt, final_world env other (fell_back env 4 14)
                       (fell_back env (13 + Nat.b2n (fell_back env 4 14)) 28))).
  { intros other.
    pose proof (outcome_independent env files other) as Hsame.
    rewrite Hrun in Hsame. cbn in Hsame.
    destruct (run env other) as [r wo] eqn:Hother. cbn in Hsame. subst r.
    f_equal. exact (run_inv env other wo Hother). }
  rewrite (Hany files) in Hrun. injection Hrun as <-.
  set (fb1 := fell_back env 4 14) in *.
  set (fb2 := fell_back env (13 + Nat.b2n fb1) 28) in *.
  exists (final_world env files' fb1 fb2).
  exists (final_world env (fs (final_world env files fb1 fb2)) fb1 fb2).
  split; [apply Hany|]. cbn.
  rewrite !(lookup_insert_ne _ "dmg-background@2x.png" "dmg-background.png") by done.
  rewrite !lookup_insert_eq.
  repeat split; eauto.
  apply map_eq. intros k. rewrite !lookup_insert.
  repeat case_decide; reflexivity.
Qed.

(** C9. A complete run changes the working directory by writing
    dmg-background.png and dmg-background@2x.png and nothing else,
    whatever was there under those names; it prints exactly the two
    confirmation lines, each ending in the path of its file and each
    printed right after the save of that file. *)
Theorem files_and_confirmations (w : World) :
  run env files = (Ok tt, w) ->
  exists img img_2x before between,
    heap w = [img; img_2x] /\
    fs w = <["dmg-background@2x.png" := png_encode env img_2x]>
             (<["dmg-background.png" := png_encode env img]> files) /\
    (forall path, path <> "dmg-background.png" ->
                  path <> "dmg-background@2x.png" ->
                  fs w !! path = files !! path) /\
    saves (calls w) = [ (0%nat, "dmg-background.png");
                        (1%nat, "dmg-background@2x.png") ] /\
    stdout w = [ ("DMG background created: " ++ "dmg-background.png")%string;
                 ("DMG background @2x created: " ++ "dmg-background@2x.png")%string ] /\
    calls w =
      (before ++
       [ CallSave 0%nat "dmg-background.png";
         CallPrint ("DMG background created: " ++ "dmg-background.png")%string ] ++
       between ++
       [ CallSave 1%nat "dmg-background@2x.png";
         CallPrint ("DMG background @2x created: " ++ "dmg-background@2x.png")%string ])%list.
Proof.
  intros Hrun. apply run_success in Hrun as (fb1 & fb2 & ->).
  exists (base_image env (font_of fb1 14)), (retina_image env (font_of fb2 28)).
  exists (take (length (base_calls env fb1) - 2) (base_calls env fb1)).
  exists (take (length (retina_calls env fb2) - 2) (retina_calls env fb2)).
  split; [reflexivity|].
  split; [reflexivity|].
  split; [intros path H1 H2; cbn; by rewrite !lookup_insert_ne by done|].
  repeat split; destruct fb1, fb2; reflexivity.
Qed.

(** C10. Once the base render has completed, dmg-background.png is on
    disk and its confirmation line is printed, both as the last two
    calls before the first call of the 2x render; whatever then
    happens in the 2x render, a fault included, the run ends with that
    file and that line in place. *)
Theorem base_saved_before_retina (w1 w : World) (r : result unit) :
  render_base env (boot files) = (Ok tt, w1) ->
  render_2x env w1 = (r, w) ->
  run env files = (r, w) /\
  exists img before steps later,
    heap w1 = [img] /\
    calls w1 = (before ++ [ CallSave 0%nat "dmg-background.png";
                            CallPrint line1 ])%list /\
    news (calls w1) = [ ("RGB", (660, 400), (240, 240, 245)) ] /\
    fs w1 !! "dmg-background.png" = Some (png_encode env img) /\
    stdout w1 = [ line1 ] /\
    calls w = (calls w1 ++ CallNew "RGB" (1320, 800) (240, 240, 245) :: steps)%list /\
    fs w !! "dmg-background.png" = Some (png_encode env img) /\
    stdout w = line1 :: later.
Proof.
  intros Hbase Hretina. split.
  { unfold run. rewrite script_unfold, Hbase. exact Hretina. }
  apply render_base_inv in Hbase. subst w1.
  apply render_2x_frame in Hretina as (Hfile & (later & Hout) & (steps & Hcalls)).
  exists (base_image env (font_of (fell_back env 4 14) 14)).
  exists (take (length (base_calls env (fell_back env 4 14)) - 2)
               (base_calls env (fell_back env 4 14))).
  exists steps, later.
  destruct (fell_back env 4 14);
    (split; [reflexivity|]);
    (split; [reflexivity|]);
    (split; [reflexivity|]);
    (split; [cbn; apply lookup_insert_eq|]);
    (split; [reflexivity|]);
    (split; [exact Hcalls|]);
    (split; [exact Hfile|exact Hout]).
Qed.

End Contract.

(** ** The contract on concrete hosts *)

(** On a host with the font, over a directory that already holds an
    older background. *)
Lemma output_dimensions_macos :
  run Sample.macos Sample.stale =
    (Ok tt, final_world Sample.macos Sample.stale false false) /\
  im_size <$> heap (final_world Sample.macos Sample.stale false false) =
    [(660, 400); (1320, 800)].
Proof.
  assert (Hrun : run Sample.macos Sample.stale =
                 (Ok tt, final_world Sample.macos Sample.stale false false))
    by run_script.
  split; [exact Hrun|].
  destruct (output_dimensions Sample.macos Sample.stale _ Hrun)
    as (img & img_2x & Hheap & Hsize & Hsize_2x & _).
  rewrite Hheap. cbn. rewrite Hsize, Hsize_2x. reflexivity.
Defined.

Lemma arrow_line_drawn_macos :
  run Sample.macos ∅ = (Ok tt, final_world Sample.macos ∅ false false) /\
  lines_on 0%nat (calls (final_world Sample.macos ∅ false false)) =
    [ ([(250, 190); (400, 190)], (150, 150, 160), 2) ] /\
  lines_on 1%nat (calls (final_world Sample.macos ∅ false false)) =
    [ ([(500, 380); (800, 380)], (150, 150, 160), 4) ] /\
  exists img img_2x,
    heap (final_world Sample.macos ∅ false false) = [img; img_2x] /\
    getpixel img (250, 190) = Some (150, 150, 160) /\
    getpixel img (325, 191) = Some (150, 150, 160) /\
    getpixel img_2x (500, 378) = Some (150, 150, 160) /\
    getpixel img_2x (650, 382) = Some (150, 150, 160).
Proof.
  assert (Hrun : run Sample.macos ∅ =
                 (Ok tt, final_world Sample.macos ∅ false false))
    by run_script.
  split; [exact Hrun|].
  destruct (arrow_line_drawn Sample.macos ∅ _ Hrun)
    as (img & img_2x & anchor & font & anchor_2x & font_2x &
        Hheap & _ & _ & Hbase & Hretina & _ & _ & Htext & Htext_2x & Hpix & Hpix_2x).
  split; [exact Hbase|]. split; [exact Hretina|].
  exists img, img_2x. split; [exact Hheap|].
  injection Hheap as <- <-.
  injection Htext as <- <-. injection Htext_2x as <- <-.
  repeat split; (apply Hpix || apply Hpix_2x); reflexivity.
Defined.

Lemma arrow_head_drawn_linux :
  run Sample.linux ∅ = (Ok tt, final_world Sample.linux ∅ true true) /\
  polygons_on 0%nat (calls (final_world Sample.linux ∅ true true)) =
    [ ([(402, 190); (380, 180); (380, 200)], (150, 150, 160)) ] /\
  polygons_on 1%nat (calls (final_world Sample.linux ∅ true true)) =
    [ ([(804, 380); (760, 360); (760, 400)], (150, 150, 160)) ] /\
  exists img img_2x,
    heap (final_world Sample.linux ∅ true true) = [img; img_2x] /\
    getpixel img (402, 190) = Some (150, 150, 160) /\
    getpixel img (385, 183) = Some (150, 150, 160) /\
    getpixel img_2x (804, 380) = Some (150, 150, 160) /\
    getpixel img_2x (770, 395) = Some (150, 150, 160).
Proof.
  assert (Hrun : run Sample.linux ∅ =
                 (Ok tt, final_world Sample.linux ∅ true true))
    by run_script.
  split; [exact Hrun|].
  destruct (arrow_head_drawn Sample.linux ∅ _ Hrun)
    as (img & img_2x & anchor & font & anchor_2x & font_2x &
        Hheap & _ & _ & Hbase & Hretina & _ & _ & Htext & Htext_2x & Hpix & Hpix_2x).
  split; [exact Hbase|]. split; [exact Hretina|].
  exists img, img_2x. split; [exact Hheap|].
  injection Hheap as <- <-.
  injection Htext as <- <-. injection Htext_2x as <- <-.
  repeat split; (apply Hpix || apply Hpix_2x); reflexivity.
Defined.

(** With the 6-pixel cells of the sample default font the caption is 90
    pixels wide in both renders: it starts at x = 280, and at x = 605 on
    the 2x image. *)
Lemma caption_placement_linux :
  run Sample.linux ∅ = (Ok tt, final_world Sample.linux ∅ true true) /\
  texts_on 0%nat (calls (final_world Sample.linux ∅ true true)) =
    [ ((280, 202), "Drag to install", (100, 100, 110), DefaultFont) ] /\
  texts_on 1%nat (calls (final_world Sample.linux ∅ true true)) =
    [ ((605, 404), "Drag to install", (100, 100, 110), DefaultFont) ] /\
  exists img img_2x,
    heap (final_world Sample.linux ∅ true true) = [img; img_2x] /\
    getpixel img (280, 202) = Some (100, 100, 110) /\
    getpixel img (369, 212) = Some (100, 100, 110) /\
    getpixel img_2x (605, 404) = Some (100, 100, 110).
Proof.
  assert (Hrun : run Sample.linux ∅ =
                 (Ok tt, final_world Sample.linux ∅ true true))
    by run_script.
  split; [exact Hrun|].
  destruct (caption_placement Sample.linux ∅ _ Hrun)
    as (font & font_2x & Hm & Hm_2x & Hbase & Hretina & _ & _ & _ & _ &
        img & img_2x & Hheap & _ & _ & Hpix & Hpix_2x).
  injection Hm as <-. injection Hm_2x as <-.
  split; [exact Hbase|]. split; [exact Hretina|].
  exists img, img_2x. split; [exact Hheap|].
  injection Hheap as <- <-.
  split; [|split]; [rewrite Hpix|rewrite Hpix|rewrite Hpix_2x];
    first [reflexivity | discriminate].
Defined.

Lemma font_fallback_completes_linux :
  quiet Sample.linux /\
  exists w, run Sample.linux Sample.stale = (Ok tt, w) /\
            stdout w = [ line1; line2 ].
Proof.
  assert (Hquiet : quiet Sample.linux).
  { intros n c Hraise. destruct c; cbn in Hraise; try congruence. eauto. }
  split; [exact Hquiet|].
  destruct (font_fallback_completes Sample.linux Sample.stale Hquiet)
    as (w & n & n_2x & Hrun & _ & _ & _ & _ & _ & _ & _ & _ & Hout & _).
  exists w. split; [exact Hrun | exact Hout].
Defined.

Lemma background_preserved_macos :
  run Sample.macos ∅ = (Ok tt, final_world Sample.macos ∅ false false) /\
  exists img img_2x,
    heap (final_world Sample.macos ∅ false false) = [img; img_2x] /\
    getpixel img (0, 0) = Some (240, 240, 245) /\
    getpixel img_2x (1319, 799) = Some (240, 240, 245).
Proof.
  assert (Hrun : run Sample.macos ∅ =
                 (Ok tt, final_world Sample.macos ∅ false false))
    by run_script.
  split; [exact Hrun|].
  destruct (background_preserved Sample.macos ∅ _ Hrun)
    as (img & img_2x & Hheap & _ & _ & _ & Hbase & Hretina).
  exists img, img_2x. split; [exact Hheap|].
  injection Hheap as <- <-.
  split; [apply Hbase | apply Hretina]; reflexivity.
Defined.

Lemma rerun_byte_identical_linux :
  run Sample.linux ∅ = (Ok tt, final_world Sample.linux ∅ true true) /\
  exists w',
    run Sample.linux Sample.stale = (Ok tt, w') /\
    fs w' !! "dmg-background.png" =
      fs (final_world Sample.linux ∅ true true) !! "dmg-background.png" /\
    fs w' !! "dmg-background@2x.png" =
      fs (final_world Sample.linux ∅ true true) !! "dmg-background@2x.png".
Proof.
  assert (Hrun : run Sample.linux ∅ =
                 (Ok tt, final_world Sample.linux ∅ true true))
    by run_script.
  split; [exact Hrun|].
  destruct (rerun_byte_identical Sample.linux ∅ Sample.stale _ Hrun)
    as (w' & w'' & Hrun' & _ & _ & Hbase & Hretina & _).
  exists w'. split; [exact Hrun'|]. split; [exact Hbase | exact Hretina].
Defined.

Lemma files_and_confirmations_macos :
  run Sample.macos Sample.stale =
    (Ok tt, final_world Sample.macos Sample.stale false false) /\
  fs (final_world Sample.macos Sample.stale false false) !! "notes.txt" =
    Sample.stale !! "notes.txt" /\
  stdout (final_world Sample.macos Sample.stale false false) =
    [ "DMG background created: dmg-background.png";
      "DMG background @2x created: dmg-background@2x.png" ].
Proof.
  assert (Hrun : run Sample.macos Sample.stale =
                 (Ok tt, final_world Sample.macos Sample.stale false false))
    by run_script.
  split; [exact Hrun|].
  destruct (files_and_confirmations Sample.macos Sample.stale _ Hrun)
    as (img & img_2x & before & between & _ & _ & Hother & _ & Hout & _).
  split; [|exact Hout].
  apply Hother; discriminate.
Defined.

(** The disk fills up during the second save: the run fails, and the
    base file and its confirmation line are there all the same. *)
Lemma base_saved_before_retina_disk_full :
  exists w,
    render_base Sample.disk_full (boot ∅) =
      (Ok tt, base_world Sample.disk_full ∅ false) /\
    render_2x Sample.disk_full (base_world Sample.disk_full ∅ false) =
      (Raise (OSError "No space left on device"), w) /\
    run Sample.disk_full ∅ = (Raise (OSError "No space left on device"), w) /\
    is_Some (fs w !! "dmg-background.png") /\
    stdout w = [ line1 ].
Proof.
  assert (Hbase : render_base Sample.disk_full (boot ∅) =
                  (Ok tt, base_world Sample.disk_full ∅ false))
    by run_script.
  eexists.
  assert (Hretina :
            render_2x Sample.disk_full (base_world Sample.disk_full ∅ false) =
            (Raise (OSError "No space left on device"), _))
    by run_script.
  split; [exact Hbase|]. split; [exact Hretina|].
  destruct (base_saved_before_retina Sample.disk_full ∅ _ _ _ Hbase Hretina)
    as (Hrun & img & before & steps & later & _ & _ & _ & _ & _ & _ & Hfile & _).
  split; [exact Hrun|].
  split; [rewrite Hfile; eexists; reflexivity|].
  reflexivity.
Defined.

(** ** Beyond the contract: failing runs *)

Section Outcomes.
Variable env : Env.
Variable files : gmap string (list byte).

(** Where a run can stop, seen from the working directory and standard
    output: before the first save has taken effect; after it, with or
    without the first confirmation; after the second save but before
    its confirmation; or at the very end. *)
Lemma run_stages (r : result unit) (w : World) :
  run env files = (r, w) ->
  (fs w = files /\ stdout w = [] /\ saves (calls w) = [] /\
   exists e, r = Raise e) \/
  (fs w = files /\ stdout w = [] /\
   saves (calls w) = [ (0%nat, "dmg-background.png") ] /\
   exists e, r = Raise e) \/
  (exists img rest out e,
      heap w = img :: rest /\
      fs w = <["dmg-background.png" := png_encode env img]> files /\
      stdout w = out /\ (out = [] \/ out = [line1]) /\
      r = Raise e) \/
  (exists img img_2x e,
      heap w = [img; img_2x] /\
      fs w = <["dmg-background@2x.png" := png_encode env img_2x]>
               (<["dmg-background.png" := png_encode env img]> files) /\
      stdout w = [line1] /\ r = Raise e) \/
  (exists img img_2x,
      heap w = [img; img_2x] /\
      fs w = <["dmg-background@2x.png" := png_encode env img_2x]>
               (<["dmg-background.png" := png_encode env img]> files) /\
      stdout w = [line1; line2] /\ r = Ok tt).
Proof.
  unfold_script. exec_calls env; intros Hrun; injection Hrun as <- <-; cbn.
  all: first
    [ left; solve [repeat split; eauto]
    | right; left; solve [repeat split; eauto]
    | right; right; left; eexists _, _, _, _;
      solve [repeat split; eauto]
    | right; right; right; left; eexists _, _, _;
      solve [repeat split; eauto]
    | right; right; right; right; eexists _, _;
      solve [repeat split; eauto] ].
Qed.

(** In every outcome, only the two output names can have changed. *)
Lemma fs_frame (r : result unit) (w : World) (path : string) :
  run env files = (r, w) ->
  path <> "dmg-background.png" ->
  path <> "dmg-background@2x.png" ->
  fs w !! path = files !! path.
Proof.
  intros Hrun H1 H2.
  destruct (run_stages r w Hrun)
    as [(-> & _)|[(-> & _)|[(img & rest & out & e & _ & -> & _)|
        [(img & img_2x & e & _ & -> & _)|(img & img_2x & _ & -> & _)]]]];
    by rewrite ?lookup_insert_ne by done.
Qed.

(** X1. Which exceptions end a run of the file, and which do not. An
    exception that ends the run comes either from the import, before
    any library call, or from the last library call made, which is then
    not a [truetype] request. Conversely every library call other than
    [truetype] that raises is the last call of the run and its exception
    is the run's outcome, [load_default] in the [except] branch
    included; a [truetype] request that raises is followed by
    [load_default] and the run goes on. *)
Theorem exception_provenance (pil : option exn) (r : result unit) (w : World) :
  run_file env pil files = (r, w) ->
  (forall e,
      r = Raise e ->
      (pil = Some e /\ calls w = []) \/
      (pil = None /\
       exists pre c,
         calls w = (pre ++ [c])%list /\
         raises env (length pre) c = Some e /\
         forall path size, c <> CallTruetype path size)) /\
  (forall e, pil = Some e -> r = Raise e /\ calls w = []) /\
  (forall n c e,
      calls w !! n = Some c ->
      raises env n c = Some e ->
      (forall path size, c <> CallTruetype path size) ->
      S n = length (calls w) /\ r = Raise e) /\
  (forall n path size e,
      calls w !! n = Some (CallTruetype path size) ->
      raises env n (CallTruetype path size) = Some e ->
      calls w !! S n = Some CallLoadDefault).
Proof.
  unfold run_file, create_dmg_background, import_PIL.
  destruct pil as [e0|].
  { unfold mbind, M_bind; cbn. intros Hrun. injection Hrun as <- <-.
    split; [intros e He; injection He as <-; left; split; reflexivity|].
    split; [intros e He; injection He as <-; split; reflexivity|].
    split; intros n; intros; destruct n; discriminate. }
  unfold_script. exec_calls env; intros Hrun; injection Hrun as <- <-; cbn.
  all: split;
    [ intros exc Hexc;
      first
        [ discriminate Hexc
        | injection Hexc as <-;
          right; split; [reflexivity|];
          match goal with
          | |- exists pre c, ?l = _ /\ _ =>
              exists (removelast l), (List.last l CallLoadDefault)
          end;
          (split; [reflexivity|]);
          (split; [cbn; assumption | intros path size; discriminate]) ] |].
  all: split; [intros exc Hexc; discriminate Hexc|].
  all: split;
    [ intros n c exc Hl Hraise Hnot;
      scan_log n Hl ltac:(injection Hl as <-; settle_raise Hraise Hnot)
    | intros n path size exc Hl Hraise;
      scan_log n Hl
        ltac:(first [ discriminate Hl
                    | injection Hl as <- <-;
                      first [ reflexivity | clash_raise Hraise ] ]) ].
Qed.

(** X3. A confirmation line is never printed for a file that is not on
    disk: whatever the outcome, if the first line was printed then
    dmg-background.png holds the encoding of the first image as it still
    is at the end of the run, and if the second line was printed then
    the run completed and dmg-background@2x.png holds the second image. *)
Theorem announced_implies_saved (r : result unit) (w : World) :
  run env files = (r, w) ->
  (line1 ∈ stdout w ->
   exists img rest,
     heap w = img :: rest /\
     fs w !! "dmg-background.png" = Some (png_encode env img)) /\
  (line2 ∈ stdout w ->
   r = Ok tt /\
   exists img img_2x,
     heap w = [img; img_2x] /\
     fs w !! "dmg-background@2x.png" = Some (png_encode env img_2x)).
Proof.
  intros Hrun.
  destruct (run_stages r w Hrun)
    as [(_ & Hout & _)|[(_ & Hout & _)|[(img & rest & out & e & Hheap & Hfs & Hout & Hcases & _)|
        [(img & img_2x & e & Hheap & Hfs & Hout & _)|(img & img_2x & Hheap & Hfs & Hout & Hr)]]]];
    rewrite Hout.
  - split; intros Hin; by apply elem_of_nil in Hin.
  - split; intros Hin; by apply elem_of_nil in Hin.
  - split.
    + intros _. exists img, rest. split; [exact Hheap|].
      rewrite Hfs. apply lookup_insert_eq.
    + intros Hin. destruct Hcases as [->| ->].
      * by apply elem_of_nil in Hin.
      * apply list_elem_of_singleton in Hin. discriminate Hin.
  - split.
    + intros _. exists img, [img_2x]. split; [exact Hheap|].
      rewrite Hfs. rewrite lookup_insert_ne by done. apply lookup_insert_eq.
    + intros Hin. apply list_elem_of_singleton in Hin. discriminate Hin.
  - split.
    + intros _. exists img, [img_2x]. split; [exact Hheap|].
      rewrite Hfs. rewrite lookup_insert_ne by done. apply lookup_insert_eq.
    + intros _. split; [exact Hr|]. exists img, img_2x. split; [exact Hheap|].
      rewrite Hfs. apply lookup_insert_eq.
Qed.

(** X4. A run that stops before reaching its first save has changed
    nothing: the working directory is as it was found and nothing has
    been printed. *)
Theorem no_save_no_change (r : result unit) (w : World) :
  run env files = (r, w) ->
  saves (calls w) = [] ->
  fs w = files /\ stdout w = [] /\ exists e, r = Raise e.
Proof.
  unfold_script. exec_calls env; intros Hrun; injection Hrun as <- <-; cbn;
    intros Hsaves; try discriminate Hsaves; eauto.
Qed.

End Outcomes.

(** ** Beyond the contract: the composition and the caption *)

Section Composition.
Variable env : Env.
Variable files : gmap string (list byte).

(** X6. The layers of the saved base image, bottom to top: background,
    shaft and arrowhead in the stroke colour, then the caption mixed
    over whatever lies under it. Every pixel of the image is accounted
    for; the 2x image is layered the same way. *)
Theorem layers_of_saved_images (w : World) :
  run env files = (Ok tt, w) ->
  exists img img_2x at_ font at_2x font_2x,
    heap w = [img; img_2x] /\
    fs w !! "dmg-background.png" = Some (png_encode env img) /\
    fs w !! "dmg-background@2x.png" = Some (png_encode env img_2x) /\
    texts_on 0%nat (calls w) = [ (at_, "Drag to install", (100, 100, 110), font) ] /\
    texts_on 1%nat (calls w) = [ (at_2x, "Drag to install", (100, 100, 110), font_2x) ] /\
    (forall p, in_bounds img p = true ->
       getpixel img p =
       Some (let under :=
               if polygon_mask env [(402, 190); (380, 180); (380, 200)] p ||
                  line_mask env [(250, 190); (400, 190)] 2 p
               then (150, 150, 160) else (240, 240, 245) in
             let cov := text_coverage env at_ "Drag to install" font p in
             if cov =? 0 then under else blend env under (100, 100, 110) cov)) /\
    (forall p, in_bounds img_2x p = true ->
       getpixel img_2x p =
       Some (let under :=
               if polygon_mask env [(804, 380); (760, 360); (760, 400)] p ||
                  line_mask env [(500, 380); (800, 380)] 4 p
               then (150, 150, 160) else (240, 240, 245) in
             let cov := text_coverage env at_2x "Drag to install" font_2x p in
             if cov =? 0 then under else blend env under (100, 100, 110) cov)).
Proof.
  intros Hrun. apply run_success in Hrun as (fb1 & fb2 & ->).
  exists (base_image env (font_of fb1 14)), (retina_image env (font_of fb2 28)).
  exists (325 - measured_width env (font_of fb1 14) / 2, 202), (font_of fb1 14).
  exists (650 - measured_width env (font_of fb2 28) / 2, 404), (font_of fb2 28).
  split; [reflexivity|].
  split; [cbn; rewrite lookup_insert_ne by done; apply lookup_insert_eq|].
  split; [cbn; apply lookup_insert_eq|].
  split; [destruct fb1, fb2; reflexivity|].
  split; [destruct fb1, fb2; reflexivity|].
  split; intros p Hin; unfold getpixel; rewrite Hin; f_equal; cbn;
    destruct (polygon_mask env _ p), (line_mask env _ _ p); reflexivity.
Qed.


(** X8. When the 2x font measures the caption exactly twice as wide as
    the base font does, the 2x caption starts at twice the base x, less
    one pixel if the base width is odd (the halves are floored); its y
    is always twice the base y. *)
Theorem caption_scales_up_to_rounding (w : World)
    (x x_2x y y_2x : Z) (font font_2x : Font) :
  run env files = (Ok tt, w) ->
  texts_on 0%nat (calls w) = [ ((x, y), "Drag to install", (100, 100, 110), font) ] ->
  texts_on 1%nat (calls w) = [ ((x_2x, y_2x), "Drag to install", (100, 100, 110), font_2x) ] ->
  measured_width env font_2x = 2 * measured_width env font ->
  x_2x = 2 * x - measured_width env font mod 2 /\ y_2x = 2 * y.
Proof.
  intros Hrun. apply run_success in Hrun as (fb1 & fb2 & ->).
  intros Hbase Hretina Hwidth.
  assert (font = font_of fb1 14 /\ x = 325 - measured_width env font / 2 /\ y = 202)
    as (-> & -> & ->)
    by (destruct fb1, fb2; cbn in Hbase; injection Hbase as <- <- <-; auto).
  assert (font_2x = font_of fb2 28 /\
          x_2x = 650 - measured_width env font_2x / 2 /\ y_2x = 404)
    as (-> & -> & ->)
    by (destruct fb1, fb2; cbn in Hretina; injection Hretina as <- <- <-; auto).
  rewrite Hwidth. split; [|reflexivity].
  Z.div_mod_to_equations; lia.
Qed.

(** X9. When both renders fall back to the default font, the caption is
    not scaled: both images get it in the same font and the same
    measured width, and the 2x caption starts 325 pixels to the right of
    the base one. *)
Theorem fallback_caption_not_scaled (w : World) :
  run env files = (Ok tt, w) ->
  default_loads (calls w) = 2%nat ->
  exists x,
    x = 325 - measured_width env DefaultFont / 2 /\
    texts_on 0%nat (calls w) =
      [ ((x, 202), "Drag to install", (100, 100, 110), DefaultFont) ] /\
    texts_on 1%nat (calls w) =
      [ ((x + 325, 404), "Drag to install", (100, 100, 110), DefaultFont) ].
Proof.
  intros Hrun. apply run_success in Hrun as (fb1 & fb2 & ->).
  destruct fb1, fb2; cbn; intros Hloads; try discriminate Hloads.
  eexists. split; [reflexivity|]. split; [reflexivity|].
  do 5 f_equal. lia.
Qed.

(** X10. A complete run repairs what a failed one left behind: run again
    (in any environment) over the directory a run stopped in, a complete
    run leaves exactly the directory it would have left had the earlier
    run never happened. *)
Theorem complete_run_after_any_run (env0 : Env) (r : result unit) (w0 w : World) :
  run env0 files = (r, w0) ->
  run env (fs w0) = (Ok tt, w) ->
  exists w', run env files = (Ok tt, w') /\ fs w = fs w'.
Proof.
  intros Hfirst Hsecond.
  pose proof (outcome_independent env (fs w0) files) as Hsame.
  rewrite Hsecond in Hsame. cbn in Hsame.
  destruct (run env files) as [r' w'] eqn:Hfresh. cbn in Hsame. subst r'.
  exists w'. split; [reflexivity|].
  apply run_inv in Hsecond. apply run_inv in Hfresh. subst w w'. cbn.
  apply map_eq. intros path. rewrite !lookup_insert.
  repeat case_decide; try reflexivity.
  apply (fs_frame env0 files r w0 path Hfirst); congruence.
Qed.

End Composition.

(** ** The further properties on concrete hosts *)

(** Once the import has succeeded the file is the script. *)
Lemma run_file_imported (env : Env) (files : gmap string (list byte)) :
  run_file env None files = run env files.
Proof. reflexivity. Qed.

(** Without Pillow the file stops at its first line: nothing is
    called, written or printed. *)
Example missing_pillow :
  run_file Sample.macos (Some (OtherException "ModuleNotFoundError")) Sample.stale =
    (Raise (OtherException "ModuleNotFoundError"),
     {| heap := []; fs := Sample.stale; stdout := []; calls := [] |}).
Proof. reflexivity. Qed.

(** A run is its two renders, one after the other. *)
Lemma run_from_parts (env : Env) (files : gmap string (list byte))
    (w1 w : World) (r : result unit) :
  render_base env (boot files) = (Ok tt, w1) ->
  render_2x env w1 = (r, w) ->
  run env files = (r, w).
Proof.
  intros Hbase Hretina. unfold run. rewrite script_unfold, Hbase. exact Hretina.
Qed.

Lemma exception_provenance_disk_full :
  exists w pre c,
    run_file Sample.disk_full None ∅ =
      (Raise (OSError "No space left on device"), w) /\
    calls w = (pre ++ [c])%list /\
    raises Sample.disk_full (length pre) c =
      Some (OSError "No space left on device") /\
    forall path size, c <> CallTruetype path size.
Proof.
  eexists.
  assert (Hbase : render_base Sample.disk_full (boot ∅) =
                  (Ok tt, base_world Sample.disk_full ∅ false))
    by run_script.
  assert (Hretina : render_2x Sample.disk_full (base_world Sample.disk_full ∅ false) =
                    (Raise (OSError "No space left on device"), _))
    by run_script.
  pose proof (eq_trans (run_file_imported Sample.disk_full ∅)
                (run_from_parts Sample.disk_full ∅ _ _ _ Hbase Hretina)) as Hrun.
  destruct (exception_provenance Sample.disk_full ∅ None _ _ Hrun) as (Hends & _).
  destruct (Hends _ eq_refl) as [(Hpil & _)|(_ & pre & c & Hcalls & Hraises & Hnot)];
    [discriminate Hpil|].
  exists pre, c. split; [exact Hrun|].
  split; [exact Hcalls|]. split; [exact Hraises | exact Hnot].
Defined.

Lemma announced_implies_saved_disk_full :
  exists w,
    run Sample.disk_full ∅ = (Raise (OSError "No space left on device"), w) /\
    stdout w = [ line1 ] /\
    exists img rest,
      heap w = img :: rest /\
      fs w !! "dmg-background.png" = Some (png_encode Sample.disk_full img).
Proof.
  eexists.
  assert (Hbase : render_base Sample.disk_full (boot ∅) =
                  (Ok tt, base_world Sample.disk_full ∅ false))
    by run_script.
  assert (Hretina : render_2x Sample.disk_full (base_world Sample.disk_full ∅ false) =
                    (Raise (OSError "No space left on device"), _))
    by run_script.
  pose proof (run_from_parts Sample.disk_full ∅ _ _ _ Hbase Hretina) as Hrun.
  split; [exact Hrun|]. split; [reflexivity|].
  destruct (announced_implies_saved Sample.disk_full ∅ _ _ Hrun) as (Hfirst & _).
  apply Hfirst. cbn. constructor.
Defined.

Lemma no_save_no_change_out_of_memory :
  exists w,
    run Sample.out_of_memory Sample.stale = (Raise MemoryError, w) /\
    saves (calls w) = [] /\
    fs w = Sample.stale /\ stdout w = [].
Proof.
  eexists.
  assert (Hrun : run Sample.out_of_memory Sample.stale = (Raise MemoryError, _))
    by run_script.
  match type of Hrun with
  | _ = (_, ?w) => assert (Hsaves : saves (calls w) = []) by reflexivity
  end.
  split; [exact Hrun|]. split; [exact Hsaves|].
  destruct (no_save_no_change Sample.out_of_memory Sample.stale _ _ Hrun Hsaves)
    as (Hfs & Hout & _).
  split; [exact Hfs | exact Hout].
Defined.

Lemma layers_of_saved_images_macos :
  run Sample.macos ∅ = (Ok tt, final_world Sample.macos ∅ false false) /\
  exists img img_2x,
    heap (final_world Sample.macos ∅ false false) = [img; img_2x] /\
    getpixel img (390, 186) = Some (150, 150, 160) /\
    getpixel img (300, 205) = Some (100, 100, 110) /\
    getpixel img_2x (780, 372) = Some (150, 150, 160).
Proof.
  assert (Hrun : run Sample.macos ∅ =
                 (Ok tt, final_world Sample.macos ∅ false false))
    by run_script.
  split; [exact Hrun|].
  destruct (layers_of_saved_images Sample.macos ∅ _ Hrun)
    as (img & img_2x & at_ & font & at_2x & font_2x &
        Hheap & _ & _ & Htext & Htext_2x & Hbase & Hretina).
  exists img, img_2x. split; [exact Hheap|].
  injection Hheap as <- <-.
  injection Htext as <- <-. injection Htext_2x as <- <-.
  split; [|split]; [rewrite Hbase|rewrite Hbase|rewrite Hretina]; reflexivity.
Defined.


(** On the sample host with the font the caption measures 105 pixels at
    14 points and 210 at 28: an odd base width, so 545 = 2 * 273 - 1. *)
Lemma caption_scales_up_to_rounding_macos :
  run Sample.macos ∅ = (Ok tt, final_world Sample.macos ∅ false false) /\
  measured_width Sample.macos (FreeTypeFont font_path 28) =
    2 * measured_width Sample.macos (FreeTypeFont font_path 14) /\
  545 = 2 * 273 - measured_width Sample.macos (FreeTypeFont font_path 14) mod 2 /\
  404 = 2 * 202.
Proof.
  assert (Hrun : run Sample.macos ∅ =
                 (Ok tt, final_world Sample.macos ∅ false false))
    by run_script.
  assert (Hwidth : measured_width Sample.macos (FreeTypeFont font_path 28) =
                   2 * measured_width Sample.macos (FreeTypeFont font_path 14))
    by reflexivity.
  split; [exact Hrun|]. split; [exact Hwidth|].
  exact (caption_scales_up_to_rounding Sample.macos ∅ _ 273 545 202 404 _ _
           Hrun eq_refl eq_refl Hwidth).
Defined.

Lemma fallback_caption_not_scaled_linux :
  run Sample.linux ∅ = (Ok tt, final_world Sample.linux ∅ true true) /\
  default_loads (calls (final_world Sample.linux ∅ true true)) = 2%nat /\
  exists x,
    x = 325 - measured_width Sample.linux DefaultFont / 2 /\
    texts_on 1%nat (calls (final_world Sample.linux ∅ true true)) =
      [ ((x + 325, 404), "Drag to install", (100, 100, 110), DefaultFont) ].
Proof.
  assert (Hrun : run Sample.linux ∅ =
                 (Ok tt, final_world Sample.linux ∅ true true))
    by run_script.
  assert (Hloads : default_loads (calls (final_world Sample.linux ∅ true true)) = 2%nat)
    by reflexivity.
  split; [exact Hrun|]. split; [exact Hloads|].
  destruct (fallback_caption_not_scaled Sample.linux ∅ _ Hrun Hloads)
    as (x & Hx & _ & Hretina).
  exists x. split; [exact Hx | exact Hretina].
Defined.

(** A first run dies on a full disk; a second one, after space has been
    made, leaves what a single good run would have left. *)
Lemma complete_run_after_any_run_disk_full :
  exists w0 w,
    run Sample.disk_full Sample.stale =
      (Raise (OSError "No space left on device"), w0) /\
    run Sample.macos (fs w0) = (Ok tt, w) /\
    exists w', run Sample.macos Sample.stale = (Ok tt, w') /\ fs w = fs w'.
Proof.
  eexists.
  assert (Hbase : render_base Sample.disk_full (boot Sample.stale) =
                  (Ok tt, base_world Sample.disk_full Sample.stale false))
    by run_script.
  assert (Hretina : render_2x Sample.disk_full
                      (base_world Sample.disk_full Sample.stale false) =
                    (Raise (OSError "No space left on device"), _))
    by run_script.
  pose proof (run_from_parts Sample.disk_full Sample.stale _ _ _ Hbase Hretina)
    as Hfirst.
  match type of Hfirst with
  | _ = (_, ?w0) =>
      assert (Hsecond : run Sample.macos (fs w0) =
                        (Ok tt, final_world Sample.macos (fs w0) false false))
        by run_script;
      exists (final_world Sample.macos (fs w0) false false)
  end.
  split; [exact Hfirst|]. split; [exact Hsecond|].
  exact (complete_run_after_any_run Sample.macos Sample.stale Sample.disk_full
           _ _ _ Hfirst Hsecond).
Defined.
